(** * Shallow embedding of SMARTFIT AI (src/app.py)

    The Streamlit script reads its inputs from sidebar widgets into
    module-level globals and then runs top to bottom.  The globals are
    gathered into the record [inputs]; every function of the script takes
    them as an explicit argument.  Python floats are modelled by exact
    rationals [Q]; Python's [/] raises [ZeroDivisionError] on a zero
    divisor, which is modelled by [pydiv] in a small error type. *)

From Stdlib Require Import QArith ZArith String List Bool Lia.
Import ListNotations.
Open Scope string_scope.

(** ** Python values and errors *)

Inductive exn : Type :=
  | ZeroDivisionError
  | OSError
  | KeyError
  | ValueError
  | IndexError
  | NameError.

Inductive result (A : Type) : Type :=
  | Ok (a : A)
  | Err (e : exn).
Arguments Ok {A} a.
Arguments Err {A} e.

Definition rbind {A B} (m : result A) (k : A -> result B) : result B :=
  match m with
  | Ok a => k a
  | Err e => Err e
  end.

Notation "x <- m ;; k" := (rbind m (fun x => k))
  (at level 61, m at next level, right associativity).

(** Python's true division on floats. *)
Definition pydiv (x y : Q) : result Q :=
  if Qeq_bool y 0 then Err ZeroDivisionError else Ok (x / y).

(** Python's [<] and [<=] on floats. *)
Definition py_lt (x y : Q) : bool := negb (Qle_bool y x).
Definition py_le (x y : Q) : bool := Qle_bool x y.

Definition Qz (n : Z) : Q := inject_Z n.

(** ** Sidebar inputs (lines 24-36) *)

Inductive gender_t : Type := Female | Male.

Record inputs : Type := mk_inputs {
  age : Z;
  gender : gender_t;
  height : Z;
  weight : Z;
  running_time : Z;
  running_speed : Z;
  distance : Z;
  heart_rate : Z;
  goal_calories : Z;
  goal_steps : Z;
  steps_taken : Z
}.

(** The ranges the sliders and number inputs admit. *)
Definition in_domain (i : inputs) : Prop :=
  (10 <= age i <= 100)%Z /\ (100 <= height i <= 250)%Z /\
  (30 <= weight i <= 150)%Z /\ (0 <= running_time i <= 120)%Z /\
  (0 <= running_speed i <= 40)%Z /\ (0 <= distance i <= 50)%Z /\
  (50 <= heart_rate i <= 200)%Z /\ (0 <= goal_calories i <= 5000)%Z /\
  (0 <= goal_steps i <= 50000)%Z /\ (0 <= steps_taken i <= 50000)%Z.

(** ** Metric functions (lines 48-83) *)

Definition calculate_bmi (i : inputs) : result Q :=
  h_m <- pydiv (Qz (height i)) 100 ;;
  pydiv (Qz (weight i)) (h_m ^ 2).

Definition calculate_workout_intensity (i : inputs) : result Q :=
  let max_heart_rate := (220 - age i)%Z in
  r <- pydiv (Qz (heart_rate i)) (Qz max_heart_rate) ;;
  Ok (r * 100).

Definition calculate_running_speed (i : inputs) : result Q :=
  if (running_time i >? 0)%Z then
    t <- pydiv (Qz (running_time i)) 60 ;;
    pydiv (Qz (distance i)) t
  else Ok 0.

Definition classify_bmi (bmi : Q) : string :=
  if py_lt bmi (37 # 2) then "Underweight"
  else if py_le (37 # 2) bmi && py_lt bmi 25 then "Normal"
  else if py_le 25 bmi && py_lt bmi 30 then "Overweight"
  else "Obese".

Definition provide_suggestions (bmi : Q) : string :=
  if py_lt bmi (37 # 2) then "Increase calorie intake and do strength training."
  else if py_le (37 # 2) bmi && py_lt bmi 25 then "Maintain current routine. Keep up the good work!"
  else if py_le 25 bmi && py_lt bmi 30 then "Incorporate more cardio and balanced diet."
  else "Consult a healthcare provider for a tailored fitness plan.".

(** ** Progress block (lines 107-115) *)

Definition calories_progress (calories_burned : Q) (i : inputs) : result Q :=
  if (goal_calories i >? 0)%Z then
    r <- pydiv calories_burned (Qz (goal_calories i)) ;; Ok (r * 100)
  else Ok 0.

Definition steps_progress (i : inputs) : result Q :=
  if (goal_steps i >? 0)%Z then
    r <- pydiv (Qz (steps_taken i)) (Qz (goal_steps i)) ;; Ok (r * 100)
  else Ok 0.

(** The calories progress of lines 107-110 in float64, with Rocq's
    primitive binary64 floats: [calories_burned] is the model's float
    output and the integer goal (0..5000 from the number input) converts
    exactly to a float.  Used where rounding matters. *)
From Stdlib Require Import PrimFloat.
From Stdlib Require Uint63.

Definition calories_progress_f (calories_burned : float) (i : inputs) : float :=
  if (goal_calories i >? 0)%Z then
    PrimFloat.mul
      (PrimFloat.div calories_burned
         (PrimFloat.of_uint63 (Uint63.of_Z (goal_calories i))))
      100%float
  else 0%float.

(** ** The script's external collaborators

    The pickled model and scaler, the CSV file, the f-string formatter,
    the clock and the PDF writer are opaque to the script; a value of
    [env D] fixes one behaviour of each ([D] is the type of the loaded
    data frame). *)

Record env (D : Type) : Type := mk_env {
  scaler_transform : list (list Q) -> result (list (list Q));
  calories_model_predict : list (list Q) -> result (list Q);
  read_csv : string -> result D;
  df_calories_column : D -> result (list Q);
  df_averages : D -> result (Q * Q * Q * Q);
  fmt2 : Q -> string;
  fmt_int : Z -> string;
  now_str : string;
  pdf_output : list string -> string -> result unit
}.
Arguments mk_env {D}.
Arguments scaler_transform {D}.
Arguments calories_model_predict {D}.
Arguments read_csv {D}.
Arguments df_calories_column {D}.
Arguments df_averages {D}.
Arguments fmt2 {D}.
Arguments fmt_int {D}.
Arguments now_str {D}.
Arguments pdf_output {D}.

Definition gender_str (g : gender_t) : string :=
  match g with Female => "Female" | Male => "Male" end.

(** ** Prediction function (lines 41-46) *)

Definition index0 {A} (l : list A) : result A :=
  match l with
  | x :: _ => Ok x
  | [] => Err IndexError
  end.

Definition predict_calories {D} (E : env D) (i : inputs) : result Q :=
  let input_data :=
    [[Qz (age i); (match gender i with Female => 0 | Male => 1 end);
      Qz (height i); Qz (weight i); Qz (running_time i);
      Qz (running_speed i); Qz (distance i); Qz (heart_rate i)]] in
  input_data <- scaler_transform E input_data ;;
  preds <- calories_model_predict E input_data ;;
  index0 preds.

(** ** The script run

    A run emits Streamlit elements in order and ends either normally or
    with an uncaught exception; elements already emitted stay on the
    page when a later statement raises. *)

Inductive event : Type :=
  | Title (s : string)
  | Subheader (s : string)
  | Write (s : string)
  | BarChart (col : list Q)
  | Warning (s : string)
  | Success (s : string)
  | Button (label : string).

Definition M (A : Type) : Type := list event * result A.

Definition ret {A} (a : A) : M A := ([], Ok a).

Definition mbind {A B} (m : M A) (k : A -> M B) : M B :=
  match m with
  | (l, Ok a) => let '(l', r) := k a in ((l ++ l')%list, r)
  | (l, Err e) => (l, Err e)
  end.

Notation "x <-- m ;;; k" := (mbind m (fun x => k))
  (at level 61, m at next level, right associativity).
Notation "m ;;;; k" := (mbind m (fun _ => k))
  (at level 61, right associativity).

Definition emit (ev : event) : M unit := ([ev], Ok tt).

Definition lift {A} (r : result A) : M A := ([], r).

(** [try: body except: handler] with a bare [except]. *)
Definition try_except {A} (body : M A) (handler : M A) : M A :=
  match body with
  | (l, Err _) => let '(l', r) := handler in ((l ++ l')%list, r)
  | ok => ok
  end.

Section Script.
Context {D : Type} (E : env D) (i : inputs).

(** Lines 88-102. *)
Definition display_metrics : M (Q * Q * Q * Q * string * string) :=
  emit (Title "SMARTFIT AI - Personal Fitness Tracker") ;;;;
  calories_burned <-- lift (predict_calories E i) ;;;
  bmi <-- lift (calculate_bmi i) ;;;
  intensity <-- lift (calculate_workout_intensity i) ;;;
  speed <-- lift (calculate_running_speed i) ;;;
  let bmi_category := classify_bmi bmi in
  let suggestion := provide_suggestions bmi in
  emit (Subheader "Your Fitness Metrics") ;;;;
  emit (Write ("**Calories Burned:** " ++ fmt2 E calories_burned)) ;;;;
  emit (Write ("**BMI:** " ++ fmt2 E bmi ++ " (" ++ bmi_category ++ ")")) ;;;;
  emit (Write ("**Workout Intensity:** " ++ fmt2 E intensity ++ "%")) ;;;;
  emit (Write ("**Running Speed:** " ++ fmt2 E speed ++ " km/h")) ;;;;
  emit (Write ("**Fitness Suggestion:** " ++ suggestion)) ;;;;
  ret (calories_burned, bmi, intensity, speed, bmi_category, suggestion).

(** Lines 107-119. *)
Definition track_progress (calories_burned : Q) : M unit :=
  cp <-- lift (calories_progress calories_burned i) ;;;
  sp <-- lift (steps_progress i) ;;;
  emit (Subheader "Progress") ;;;;
  emit (Write ("**Calories Progress:** " ++ fmt2 E cp ++ "%")) ;;;;
  emit (Write ("**Steps Progress:** " ++ fmt2 E sp ++ "%")).

(** Lines 124-129: the name [df] stays bound once [read_csv] returned,
    even when the plotting after it raises. *)
Definition show_data_analysis : M (option D) :=
  match read_csv E "calories_burned_data.csv" with
  | Err _ =>
      emit (Warning "Dataset 'calories_burned_data.csv' not found for plotting.") ;;;;
      ret None
  | Ok df =>
      try_except
        (emit (Subheader "Calories Burned Distribution") ;;;;
         col <-- lift (df_calories_column E df) ;;;
         emit (BarChart col))
        (emit (Warning "Dataset 'calories_burned_data.csv' not found for plotting.")) ;;;;
      ret (Some df)
  end.

(** Lines 134-147: an unbound [df] raises [NameError] inside the try. *)
Definition compare_with_averages (df : option D)
    (calories_burned bmi speed : Q) : M unit :=
  try_except
    (df' <-- lift (match df with Some d => Ok d | None => Err NameError end) ;;;
     avgs <-- lift (df_averages E df') ;;;
     let '(avg_cal, avg_bmi, avg_speed, avg_hr) := avgs in
     emit (Subheader "Comparison with Dataset Averages") ;;;;
     emit (Write ("**Your Calories Burned:** " ++ fmt2 E calories_burned ++
                  " | Dataset Avg: " ++ fmt2 E avg_cal)) ;;;;
     emit (Write ("**Your BMI:** " ++ fmt2 E bmi ++ " | Dataset Avg: " ++ fmt2 E avg_bmi)) ;;;;
     emit (Write ("**Your Running Speed:** " ++ fmt2 E speed ++
                  " | Dataset Avg: " ++ fmt2 E avg_speed)) ;;;;
     emit (Write ("**Your Heart Rate:** " ++ fmt2 E (Qz (heart_rate i)) ++
                  " | Dataset Avg: " ++ fmt2 E avg_hr)))
    (emit (Warning "Dataset not available for comparison.")).

(** Lines 153-167: the cells written into the PDF, in order. *)
Definition report_cells (calories_burned bmi intensity speed : Q)
    (bmi_category suggestion : string) : list string :=
  [ "SMARTFIT AI - Fitness Report";
    "Date: " ++ now_str E;
    "------------------------------";
    "Age: " ++ fmt_int E (age i);
    "Gender: " ++ gender_str (gender i);
    "Height: " ++ fmt_int E (height i) ++ " cm";
    "Weight: " ++ fmt_int E (weight i) ++ " kg";
    "Calories Burned: " ++ fmt2 E calories_burned;
    "BMI: " ++ fmt2 E bmi ++ " (" ++ bmi_category ++ ")";
    "Workout Intensity: " ++ fmt2 E intensity ++ "%";
    "Running Speed: " ++ fmt2 E speed ++ " km/h";
    "Fitness Suggestion: " ++ suggestion ].

(** Lines 152-169. *)
Definition generate_report (calories_burned bmi intensity speed : Q)
    (bmi_category suggestion : string) : M unit :=
  lift (pdf_output E (report_cells calories_burned bmi intensity speed
                        bmi_category suggestion) "fitness_report.pdf") ;;;;
  emit (Success "PDF report generated as fitness_report.pdf").

(** The whole script, given which of the two buttons was clicked
    ([st.button] renders its widget on every run and returns whether it
    was clicked). *)
Definition run (compare_clicked report_clicked : bool) : M unit :=
  metrics <-- display_metrics ;;;
  let '(calories_burned, bmi, intensity, speed, bmi_category, suggestion) := metrics in
  track_progress calories_burned ;;;;
  df <-- show_data_analysis ;;;
  emit (Button "Compare with Dataset Averages") ;;;;
  (if compare_clicked then compare_with_averages df calories_burned bmi speed
   else ret tt) ;;;;
  emit (Button "Generate PDF Report") ;;;;
  (if report_clicked then
     generate_report calories_burned bmi intensity speed bmi_category suggestion
   else ret tt).

End Script.

(** ** Spec-side definitions used by the refinement statements *)

(** The feature vector as the spec lists it (section 4.1). *)
Definition gender_code (g : gender_t) : Q :=
  match g with Female => 0 | Male => 1 end.

Definition feature_vector (i : inputs) : list Q :=
  [Qz (age i); gender_code (gender i); Qz (height i); Qz (weight i);
   Qz (running_time i); Qz (running_speed i); Qz (distance i);
   Qz (heart_rate i)].

(** The category-to-advice table of section 4.2. *)
Definition suggestion_of (category : string) : string :=
  if String.eqb category "Underweight" then "Increase calorie intake and do strength training."
  else if String.eqb category "Normal" then "Maintain current routine. Keep up the good work!"
  else if String.eqb category "Overweight" then "Incorporate more cardio and balanced diet."
  else "Consult a healthcare provider for a tailored fitness plan.".

Definition categories : list string :=
  ["Underweight"; "Normal"; "Overweight"; "Obese"].

(** Both results are [Ok] and the first value is below the second. *)
Definition ok_lt (r1 r2 : result Q) : Prop :=
  match r1, r2 with
  | Ok a, Ok b => a < b
  | _, _ => False
  end.

(** The default sidebar values. *)
Definition default_inputs : inputs :=
  mk_inputs 25 Female 170 70 30 10 5 80 500 5000 2000.

(** Both results are [Ok] and the first value is at most the second. *)
Definition ok_le (r1 r2 : result Q) : Prop :=
  match r1, r2 with
  | Ok a, Ok b => a <= b
  | _, _ => False
  end.

(** Position of a category in the band order Underweight < Normal <
    Overweight < Obese. *)
Definition category_index (c : string) : nat :=
  if String.eqb c "Underweight" then 0
  else if String.eqb c "Normal" then 1
  else if String.eqb c "Overweight" then 2
  else 3.

(** Concrete collaborators: every step succeeds; the CSV read and the
    PDF write fail. *)
Definition env_default_ok : env unit :=
  mk_env (fun x => Ok x) (fun _ => Ok [250]) (fun _ => Ok tt)
         (fun _ => Ok [100; 200]) (fun _ => Ok (300, 22, 9, 120))
         (fun _ => "q") (fun _ => "z") "2026-10-15 00:00:00"
         (fun _ _ => Ok tt).

Definition env_failing_write : env unit :=
  mk_env (fun x => Ok x) (fun _ => Ok [250]) (fun _ => Err OSError)
         (fun _ => Ok []) (fun _ => Ok (0, 0, 0, 0))
         (fun _ => "q") (fun _ => "z") "2026-10-15 00:00:00"
         (fun _ _ => Err OSError).


(** ** Sanity checks on the end-to-end scenarios of the spec *)

Example scenario1_category :
  match calculate_bmi default_inputs with
  | Ok b => classify_bmi b = "Normal" /\ 24215 # 1000 < b /\ b < 24225 # 1000
  | Err _ => False
  end.
Proof. vm_compute. repeat split; discriminate. Qed.

Example scenario2_category :
  match calculate_bmi (mk_inputs 25 Female 170 90 30 10 5 80 500 5000 2000) with
  | Ok b => classify_bmi b = "Obese" /\
            provide_suggestions b = "Consult a healthcare provider for a tailored fitness plan."
  | Err _ => False
  end.
Proof. vm_compute. split; reflexivity. Qed.

Example scenario4_speed :
  calculate_running_speed default_inputs = Ok (5 / (30 / 60)) /\
  5 / (30 / 60) == 10.
Proof. split; reflexivity. Qed.

(** ** Helper lemmas *)

Lemma py_lt_spec (x y : Q) : py_lt x y = true <-> x < y.
Proof.
  unfold py_lt. rewrite negb_true_iff. split.
  - intro H. apply Qnot_le_lt. intro H'. apply Qle_bool_iff in H'. congruence.
  - intro H. destruct (Qle_bool y x) eqn:E; [|reflexivity].
    apply Qle_bool_iff in E. exfalso. apply (Qlt_not_le x y); assumption.
Qed.

Lemma py_le_spec (x y : Q) : py_le x y = true <-> x <= y.
Proof. apply Qle_bool_iff. Qed.

Lemma py_lt_false (x y : Q) : py_lt x y = false <-> y <= x.
Proof.
  unfold py_lt. rewrite negb_false_iff. apply Qle_bool_iff.
Qed.

Lemma pydiv_ok (x y : Q) : ~ y == 0 -> pydiv x y = Ok (x / y).
Proof.
  intro H. unfold pydiv. destruct (Qeq_bool y 0) eqn:E; [|reflexivity].
  apply Qeq_bool_iff in E. contradiction.
Qed.

Lemma Qz_pos (n : Z) : (0 < n)%Z -> 0 < Qz n.
Proof. intro H. unfold Qz, Qlt. simpl. lia. Qed.

Lemma Qz_zero (n : Z) : Qz n == 0 <-> n = 0%Z.
Proof. unfold Qz, Qeq. simpl. lia. Qed.

Ltac py_cmp :=
  repeat match goal with
  | |- context [py_lt ?x ?y] =>
      let E := fresh "E" in
      destruct (py_lt x y) eqn:E;
      [apply py_lt_spec in E | apply py_lt_false in E]
  | |- context [py_le ?x ?y] =>
      let E := fresh "E" in
      destruct (py_le x y) eqn:E;
      [apply py_le_spec in E | rewrite <- not_true_iff_false, py_le_spec in E;
                               apply Qnot_le_lt in E]
  end; simpl.

(** ** Claims *)

From Stdlib Require Import Lqa.

(** C1: [classify_bmi] follows the half-open band table: below 18.5 is
    Underweight, [18.5, 25) Normal, [25, 30) Overweight, 30 and above
    Obese; the result is one of the four categories, and each boundary
    value 18.5, 25, 30 falls in the higher band. *)
Theorem classify_bmi_bands (bmi : Q) :
  (classify_bmi bmi = "Underweight" <-> bmi < 37 # 2) /\
  (classify_bmi bmi = "Normal" <-> 37 # 2 <= bmi /\ bmi < 25) /\
  (classify_bmi bmi = "Overweight" <-> 25 <= bmi /\ bmi < 30) /\
  (classify_bmi bmi = "Obese" <-> 30 <= bmi) /\
  In (classify_bmi bmi) categories /\
  classify_bmi (37 # 2) = "Normal" /\
  classify_bmi 25 = "Overweight" /\
  classify_bmi 30 = "Obese".
Proof.
  refine (conj _ (conj _ (conj _ (conj _ (conj _ (conj eq_refl (conj eq_refl eq_refl))))))).
  all: unfold classify_bmi; py_cmp.
  all: try (split; [intro Hs; try discriminate; try lra | intro Hq; try reflexivity; lra]).
  all: cbv; tauto.
Qed.

(** C3: for a positive height, [calculate_bmi] returns
    weight / (height / 100)^2, unclamped. *)
Theorem calculate_bmi_formula (i : inputs) :
  (0 < height i)%Z ->
  calculate_bmi i = Ok (Qz (weight i) / (Qz (height i) / 100) ^ 2).
Proof.
  intro Hh. unfold calculate_bmi.
  rewrite pydiv_ok by (intro H; discriminate H). simpl.
  apply pydiv_ok. simpl. intro H.
  apply Qmult_integral in H.
  assert (Hp : 0 < Qz (height i) / 100).
  { apply Qlt_shift_div_l; [reflexivity|]. rewrite Qmult_0_l. now apply Qz_pos. }
  destruct H as [H|H]; rewrite H in Hp; apply (Qlt_irrefl 0); exact Hp.
Qed.

Lemma calculate_bmi_formula_witness :
  (0 < height default_inputs)%Z /\
  calculate_bmi default_inputs =
    Ok (Qz (weight default_inputs) / (Qz (height default_inputs) / 100) ^ 2).
Proof.
  split; [simpl; lia | apply calculate_bmi_formula; simpl; lia].
Defined.

(** C4: [calculate_running_speed] returns distance / (time / 60) for a
    positive running time and exactly 0 for a zero running time,
    whatever the distance. *)
Theorem calculate_running_speed_spec (i : inputs) :
  ((0 < running_time i)%Z ->
   calculate_running_speed i = Ok (Qz (distance i) / (Qz (running_time i) / 60))) /\
  (running_time i = 0%Z -> calculate_running_speed i = Ok 0).
Proof.
  unfold calculate_running_speed. split; intro H.
  - replace (running_time i >? 0)%Z with true by (symmetry; apply Z.gtb_lt; lia).
    rewrite pydiv_ok by (intro E; discriminate E). simpl.
    apply pydiv_ok. intro E.
    assert (Hp : 0 < Qz (running_time i) / 60).
    { apply Qlt_shift_div_l; [reflexivity|]. rewrite Qmult_0_l. now apply Qz_pos. }
    rewrite E in Hp. apply (Qlt_irrefl 0). exact Hp.
  - rewrite H. reflexivity.
Qed.

Lemma calculate_running_speed_spec_witness :
  calculate_running_speed default_inputs = Ok (5 / (30 / 60)) /\
  calculate_running_speed (mk_inputs 25 Female 170 70 0 10 5 80 500 5000 2000) = Ok 0.
Proof.
  split.
  - apply (proj1 (calculate_running_speed_spec default_inputs)). simpl. lia.
  - apply (proj2 (calculate_running_speed_spec
                    (mk_inputs 25 Female 170 70 0 10 5 80 500 5000 2000))).
    reflexivity.
Defined.

(** C8: the intensity division raises [ZeroDivisionError] exactly when
    age = 220; for every age up to 100 it returns
    heart_rate / (220 - age) * 100. *)
Theorem calculate_workout_intensity_defined (i : inputs) :
  (calculate_workout_intensity i = Err ZeroDivisionError <-> age i = 220%Z) /\
  ((age i <= 100)%Z ->
   calculate_workout_intensity i = Ok (Qz (heart_rate i) / Qz (220 - age i) * 100)).
Proof.
  unfold calculate_workout_intensity, pydiv; cbv zeta. split.
  - destruct (Qeq_bool (Qz (220 - age i)) 0) eqn:E.
    + rewrite Qeq_bool_iff, Qz_zero in E. split; [intros _; lia | reflexivity].
    + simpl. split; [discriminate|]. intro Ha.
      rewrite <- not_true_iff_false, Qeq_bool_iff, Qz_zero in E. lia.
  - intro Ha. destruct (Qeq_bool (Qz (220 - age i)) 0) eqn:E; [|reflexivity].
    rewrite Qeq_bool_iff, Qz_zero in E. lia.
Qed.

Lemma calculate_workout_intensity_defined_witness :
  (age default_inputs <= 100)%Z /\
  calculate_workout_intensity default_inputs = Ok (80 / 195 * 100).
Proof.
  split; [simpl; lia|].
  apply (proj2 (calculate_workout_intensity_defined default_inputs)). simpl. lia.
Defined.

(** C10: the intensity is not clamped at 100: at age 100 and heart rate
    200, inside the input domain, it is 200 / 120 * 100 > 100. *)
Theorem calculate_workout_intensity_exceeds_100 :
  let i := mk_inputs 100 Female 170 70 30 10 5 200 500 5000 2000 in
  in_domain i /\
  calculate_workout_intensity i = Ok (200 / 120 * 100) /\
  100 < 200 / 120 * 100.
Proof.
  intro i. split; [unfold in_domain; simpl; lia|].
  split; reflexivity.
Qed.

Lemma gt0_true (n : Z) : (0 < n)%Z -> (n >? 0)%Z = true.
Proof. intro H. apply Z.gtb_lt. lia. Qed.

Lemma progress_ok (a : Q) (g : Z) :
  (0 < g)%Z -> (r <- pydiv a (Qz g) ;; Ok (r * 100)) = Ok (a / Qz g * 100).
Proof.
  intro H. rewrite pydiv_ok; [reflexivity|].
  intro E. rewrite Qz_zero in E. lia.
Qed.

(** C2: each progress value is actual / goal * 100 for a positive goal
    and exactly 0 for a zero goal, with no cap at 100 (a goal of 500
    calories with 1000 burned gives 200); the calories pair and the
    steps pair are computed independently. *)
Theorem progress_spec (calories_burned : Q) (i : inputs) :
  ((0 < goal_calories i)%Z ->
   calories_progress calories_burned i =
     Ok (calories_burned / Qz (goal_calories i) * 100)) /\
  (goal_calories i = 0%Z -> calories_progress calories_burned i = Ok 0) /\
  ((0 < goal_steps i)%Z ->
   steps_progress i = Ok (Qz (steps_taken i) / Qz (goal_steps i) * 100)) /\
  (goal_steps i = 0%Z -> steps_progress i = Ok 0) /\
  calories_progress 1000 default_inputs = Ok (1000 / 500 * 100) /\
  1000 / 500 * 100 == 200.
Proof.
  unfold calories_progress, steps_progress.
  repeat split; try reflexivity.
  - intro H. rewrite gt0_true by exact H. now apply progress_ok.
  - intro H. rewrite H. reflexivity.
  - intro H. rewrite gt0_true by exact H. now apply progress_ok.
  - intro H. rewrite H. reflexivity.
Qed.

Lemma progress_spec_witness :
  calories_progress 250 default_inputs = Ok (250 / 500 * 100) /\
  calories_progress 250 (mk_inputs 25 Female 170 70 30 10 5 80 0 0 2000) = Ok 0 /\
  steps_progress default_inputs = Ok (2000 / 5000 * 100) /\
  steps_progress (mk_inputs 25 Female 170 70 30 10 5 80 0 0 2000) = Ok 0.
Proof.
  destruct (progress_spec 250 default_inputs) as [H1 [_ [H3 _]]].
  destruct (progress_spec 250 (mk_inputs 25 Female 170 70 30 10 5 80 0 0 2000))
    as [_ [H2 [_ [H4 _]]]].
  split; [apply H1; simpl; lia|].
  split; [apply H2; reflexivity|].
  split; [apply H3; simpl; lia|].
  apply H4; reflexivity.
Defined.

(** C5: [predict_calories] feeds the scaler the single row
    [age; gender code; height; weight; running time; running speed;
    distance; heart rate] of 8 fields, with Female coded 0 and Male 1,
    and the model's first output is the prediction. *)
Theorem predict_calories_feature_vector {D : Type} (E : env D) (i : inputs) :
  predict_calories E i =
    (scaled <- scaler_transform E [feature_vector i] ;;
     preds <- calories_model_predict E scaled ;;
     index0 preds) /\
  length (feature_vector i) = 8%nat /\
  gender_code Female = 0 /\ gender_code Male = 1.
Proof.
  split; [|repeat split].
  unfold predict_calories, feature_vector, gender_code.
  destruct (gender i); reflexivity.
Qed.

(** C7: the suggestion is the image of the category under a fixed table
    that sends the four distinct categories to four pairwise distinct
    advisory strings, so it is one-to-one. *)
Theorem provide_suggestions_by_category (bmi : Q) :
  provide_suggestions bmi = suggestion_of (classify_bmi bmi) /\
  NoDup categories /\
  NoDup (map suggestion_of categories).
Proof.
  split; [|split].
  - unfold provide_suggestions, classify_bmi.
    destruct (py_lt bmi (37 # 2)); [reflexivity|].
    destruct (py_le (37 # 2) bmi && py_lt bmi 25); [reflexivity|].
    destruct (py_le 25 bmi && py_lt bmi 30); reflexivity.
  - repeat constructor; cbv; intuition discriminate.
  - repeat constructor; cbv; intuition discriminate.
Qed.

Lemma percent_lt (a b : Q) (g : Z) :
  (0 < g)%Z -> a < b -> a / Qz g * 100 < b / Qz g * 100.
Proof.
  intros Hg Hab.
  apply Qmult_lt_compat_r; [reflexivity|].
  unfold Qdiv. apply Qmult_lt_compat_r; [|exact Hab].
  apply Qinv_lt_0_compat. now apply Qz_pos.
Qed.

Lemma percent_le (a b : Q) (g : Z) :
  (0 < g)%Z -> a <= b -> a / Qz g * 100 <= b / Qz g * 100.
Proof.
  intros Hg Hab.
  apply Qmult_le_compat_r; [|discriminate].
  unfold Qdiv. apply Qmult_le_compat_r; [exact Hab|].
  apply Qlt_le_weak, Qinv_lt_0_compat. now apply Qz_pos.
Qed.

(** C9 as stated fails in float64: with a calorie goal of 7, the
    calories burned 250.0 and the next float 250.00000000000003 give the
    same progress (250 / 7 * 100 rounds to one value). *)
Lemma progress_not_strict_float :
  (0 < goal_calories (mk_inputs 25 Female 170 70 30 10 5 80 7 5000 2000))%Z /\
  PrimFloat.ltb 250%float 0x1.f400000000001p+7%float = true /\
  calories_progress_f 250%float (mk_inputs 25 Female 170 70 30 10 5 80 7 5000 2000) =
  calories_progress_f 0x1.f400000000001p+7%float
                      (mk_inputs 25 Female 170 70 30 10 5 80 7 5000 2000).
Proof. split; [reflexivity|]. split; vm_compute; reflexivity. Qed.

(** C9 (amended): for a fixed positive goal, calories progress never
    decreases when the calories burned grow (it need not strictly
    increase: rounding may give equal values), and steps progress
    strictly increases with the steps taken for steps and goals within
    the number-input range 0..50000 (there, quotients of distinct
    integers stay far apart compared with the rounding error).
    Division and multiplication by a positive number are monotone both
    exactly and under correctly rounded float arithmetic. *)
Theorem progress_monotone :
  (forall (cb1 cb2 : Q) (i : inputs),
     (0 < goal_calories i)%Z -> cb1 <= cb2 ->
     ok_le (calories_progress cb1 i) (calories_progress cb2 i)) /\
  (forall i1 i2 : inputs,
     goal_steps i1 = goal_steps i2 -> (0 < goal_steps i1 <= 50000)%Z ->
     (0 <= steps_taken i1)%Z -> (steps_taken i1 < steps_taken i2)%Z ->
     (steps_taken i2 <= 50000)%Z ->
     ok_lt (steps_progress i1) (steps_progress i2)).
Proof.
  split.
  - intros cb1 cb2 i Hg Hle. unfold calories_progress.
    rewrite gt0_true by exact Hg. rewrite !progress_ok by exact Hg.
    cbn [ok_le]. now apply percent_le.
  - intros i1 i2 Heq Hg H0 Hlt H2. unfold steps_progress.
    rewrite <- Heq. rewrite gt0_true by lia.
    rewrite !progress_ok by lia.
    cbn [ok_lt]. apply percent_lt; [lia|].
    unfold Qz, Qlt. simpl. lia.
Qed.

Lemma progress_monotone_witness :
  ok_le (calories_progress 250 default_inputs) (calories_progress 600 default_inputs) /\
  ok_lt (steps_progress default_inputs)
        (steps_progress (mk_inputs 25 Female 170 70 30 10 5 80 500 5000 7000)).
Proof.
  destruct progress_monotone as [Hc Hs]. split.
  - apply Hc; [simpl; lia | discriminate].
  - apply Hs; simpl; [reflexivity | lia | lia | lia | lia].
Defined.

Lemma app_nil_r_ev (l : list event) : (l ++ [])%list = l.
Proof. apply app_nil_r. Qed.



(** C6 (code bug): the report block is the one I/O block of the script
    without a [try]/[except]: the CSV and comparison blocks catch their
    failures and show a warning, but a failing [pdf.output] is not
    reported at all.  At the default inputs with the report button
    clicked and the write raising [OSError], the page is exactly the page
    of the run without the click (no warning, no success message) and the
    [OSError] escapes uncaught, ending the run.  The metric lines shown
    before the report block do stay displayed. *)
Lemma report_write_failure_not_reported :
  run env_failing_write default_inputs false true =
    (fst (run env_failing_write default_inputs false false), Err OSError) /\
  snd (run env_failing_write default_inputs false false) = Ok tt /\
  ~ (exists s, In (Warning s) (fst (run env_failing_write default_inputs false true)) /\
               ~ In (Warning s) (fst (run env_failing_write default_inputs false false))) /\
  ~ (exists s, In (Success s) (fst (run env_failing_write default_inputs false true))).
Proof.
  split; [vm_compute; reflexivity|].
  split; [vm_compute; reflexivity|].
  replace (run env_failing_write default_inputs false true)
    with (fst (run env_failing_write default_inputs false false), @Err unit OSError)
    by (vm_compute; reflexivity).
  split; [cbn [fst]; intros [s [H1 H2]]; exact (H2 H1)|].
  intros [s Hs]. vm_compute in Hs.
  repeat (destruct Hs as [Hs|Hs]; [discriminate Hs|]). exact Hs.
Qed.

(** ** Further properties of the script *)

From Stdlib Require Import Qfield.

(** Quotients of integers, compared through their cross products. *)
Lemma Qz_div_mono (x y a b : Z) :
  (0 < a)%Z -> (0 < b)%Z -> (x * b <= y * a)%Z -> Qz x / Qz a <= Qz y / Qz b.
Proof.
  intros Ha Hb H.
  destruct a as [|pa|pa]; try lia. destruct b as [|pb|pb]; try lia.
  unfold Qle, Qdiv, Qmult, Qinv, Qz, inject_Z. simpl. nia.
Qed.

Lemma Qz_div_ge_const (c x a : Z) (e : positive) :
  (0 < a)%Z -> (c * a <= x * Zpos e)%Z -> c # e <= Qz x / Qz a.
Proof.
  intros Ha H. destruct a as [|pa|pa]; try lia.
  unfold Qle, Qdiv, Qmult, Qinv, Qz, inject_Z. simpl. nia.
Qed.

Lemma Qz_div_le_const (c x a : Z) (e : positive) :
  (0 < a)%Z -> (x * Zpos e <= c * a)%Z -> Qz x / Qz a <= c # e.
Proof.
  intros Ha H. destruct a as [|pa|pa]; try lia.
  unfold Qle, Qdiv, Qmult, Qinv, Qz, inject_Z. simpl. nia.
Qed.

Lemma Qz_nonneg (n : Z) : (0 <= n)%Z -> 0 <= Qz n.
Proof. intro H. unfold Qz, Qle. cbn [Qnum Qden inject_Z]. lia. Qed.

Lemma Qz_div_le_Qz (x y a : Z) :
  (0 < a)%Z -> (x <= y * a)%Z -> Qz x / Qz a <= Qz y.
Proof.
  intros Ha H. destruct a as [|pa|pa]; try lia.
  unfold Qle, Qdiv, Qmult, Qinv, Qz, inject_Z. simpl. nia.
Qed.

(** weight / (height / 100)^2 is the integer quotient 10000 weight / height^2. *)
Lemma bmi_as_quotient (w h : Z) :
  (0 < h)%Z -> Qz w / (Qz h / 100) ^ 2 == Qz (10000 * w) / Qz (h * h).
Proof.
  intro Hh. unfold Qz. rewrite !inject_Z_mult. simpl.
  assert (H : ~ inject_Z h == 0) by (change (~ Qz h == 0); rewrite Qz_zero; lia).
  field. exact H.
Qed.

Lemma speed_as_quotient (d t : Z) :
  (0 < t)%Z -> Qz d / (Qz t / 60) == Qz (60 * d) / Qz t.
Proof.
  intro Ht. unfold Qz. rewrite inject_Z_mult.
  assert (H : ~ inject_Z t == 0) by (change (~ Qz t == 0); rewrite Qz_zero; lia).
  field. exact H.
Qed.

Lemma calculate_bmi_ok (i : inputs) :
  (0 < height i)%Z ->
  calculate_bmi i = Ok (Qz (weight i) / (Qz (height i) / 100) ^ 2).
Proof.
  intro Hh. unfold calculate_bmi.
  rewrite pydiv_ok by (intro H; discriminate H). simpl.
  apply pydiv_ok. intro H. apply Qmult_integral in H.
  assert (Hp : 0 < Qz (height i) / 100).
  { apply Qlt_shift_div_l; [reflexivity|]. rewrite Qmult_0_l. now apply Qz_pos. }
  destruct H as [H|H]; rewrite H in Hp; apply (Qlt_irrefl 0); exact Hp.
Qed.

Lemma calculate_workout_intensity_ok (i : inputs) :
  age i <> 220%Z ->
  calculate_workout_intensity i = Ok (Qz (heart_rate i) / Qz (220 - age i) * 100).
Proof.
  intro Ha. unfold calculate_workout_intensity; cbv zeta.
  rewrite pydiv_ok; [reflexivity|]. rewrite Qz_zero. lia.
Qed.

Ltac in_dom H :=
  destruct H as [Ha [Hh [Hw [Hrt [Hrs [Hd [Hhr [Hgc [Hgs Hst]]]]]]]]].

(** Over the sidebar ranges, [calculate_bmi] never raises and its value
    lies between 4.8 (30 kg at 250 cm) and 150 (150 kg at 100 cm). *)
Theorem calculate_bmi_domain_bounds (i : inputs) :
  in_domain i ->
  exists b, calculate_bmi i = Ok b /\ 24 # 5 <= b /\ b <= 150.
Proof.
  intro H. in_dom H.
  rewrite calculate_bmi_ok by lia. eexists. split; [reflexivity|].
  rewrite bmi_as_quotient by lia. split.
  - apply Qz_div_ge_const; nia.
  - apply (Qz_div_le_const 150 _ _ 1); nia.
Qed.

Lemma calculate_bmi_domain_bounds_witness :
  in_domain default_inputs /\
  exists b, calculate_bmi default_inputs = Ok b /\ 24 # 5 <= b /\ b <= 150.
Proof.
  assert (H : in_domain default_inputs) by (unfold in_domain; simpl; lia).
  split; [exact H | apply calculate_bmi_domain_bounds; exact H].
Defined.

(** For a fixed positive height, BMI does not decrease with weight; for
    a fixed non-negative weight, it does not increase with height. *)
Theorem calculate_bmi_monotone (i1 i2 : inputs) :
  (0 < height i1)%Z -> (0 < height i2)%Z ->
  ((height i1 = height i2 /\ (weight i1 <= weight i2)%Z) \/
   (weight i1 = weight i2 /\ (0 <= weight i1)%Z /\ (height i2 <= height i1)%Z)) ->
  ok_le (calculate_bmi i1) (calculate_bmi i2).
Proof.
  intros H1 H2 Hc.
  rewrite (calculate_bmi_ok i1 H1), (calculate_bmi_ok i2 H2). cbn [ok_le].
  rewrite (bmi_as_quotient _ _ H1), (bmi_as_quotient _ _ H2).
  apply Qz_div_mono; try nia.
  destruct Hc as [[Heq Hle] | [Heq [Hw Hle]]]; rewrite Heq.
  - apply Z.mul_le_mono_nonneg_r; nia.
  - rewrite <- !Z.mul_assoc. apply Z.mul_le_mono_nonneg_l; [lia|].
    rewrite <- Heq. apply Z.mul_le_mono_nonneg_l; [lia|]. nia.
Qed.

Lemma calculate_bmi_monotone_witness :
  ok_le (calculate_bmi default_inputs)
        (calculate_bmi (mk_inputs 25 Female 170 90 30 10 5 80 500 5000 2000)).
Proof.
  apply calculate_bmi_monotone; simpl; [lia | lia |]. left. split; [reflexivity | lia].
Defined.



(** Over the sidebar ranges, [calculate_running_speed] never raises and
    its value lies between 0 and 60 times the distance (the shortest
    positive running time is one minute). *)
Theorem calculate_running_speed_domain_bounds (i : inputs) :
  in_domain i ->
  exists s, calculate_running_speed i = Ok s /\ 0 <= s /\ s <= Qz (60 * distance i).
Proof.
  intro H. in_dom H. unfold calculate_running_speed.
  destruct (running_time i >? 0)%Z eqn:Et.
  - apply Z.gtb_lt in Et.
    rewrite pydiv_ok by (intro E; discriminate E). cbn [rbind].
    rewrite pydiv_ok.
    + eexists. split; [reflexivity|]. rewrite speed_as_quotient by lia. split.
      * apply (Qz_div_ge_const 0 _ _ 1); lia.
      * apply Qz_div_le_Qz; nia.
    + intro E. assert (Hp : 0 < Qz (running_time i) / 60).
      { apply Qlt_shift_div_l; [reflexivity|]. rewrite Qmult_0_l. now apply Qz_pos. }
      rewrite E in Hp. apply (Qlt_irrefl 0). exact Hp.
  - eexists. split; [reflexivity|]. split; [apply Qle_refl|].
    apply Qz_nonneg. lia.
Qed.

Lemma calculate_running_speed_domain_bounds_witness :
  in_domain default_inputs /\
  exists s, calculate_running_speed default_inputs = Ok s /\
            0 <= s /\ s <= Qz (60 * distance default_inputs).
Proof.
  assert (H : in_domain default_inputs) by (unfold in_domain; simpl; lia).
  split; [exact H | apply calculate_running_speed_domain_bounds; exact H].
Defined.

(** The category never moves to a lower band when the BMI grows. *)
Theorem classify_bmi_monotone (b1 b2 : Q) :
  b1 <= b2 ->
  (category_index (classify_bmi b1) <= category_index (classify_bmi b2))%nat.
Proof.
  intro H. unfold classify_bmi. py_cmp; vm_compute; try lia; exfalso; lra.
Qed.

Lemma classify_bmi_monotone_witness :
  (category_index (classify_bmi 20) <= category_index (classify_bmi 27))%nat.
Proof. apply classify_bmi_monotone. discriminate. Defined.

(** A goal exactly reached reads 100, for each pair on its own: burned
    calories equal to a positive calorie goal, and steps taken equal to a
    positive step goal. *)
Theorem progress_goal_reached :
  (forall i : inputs, (0 < goal_calories i)%Z ->
   exists cp, calories_progress (Qz (goal_calories i)) i = Ok cp /\ cp == 100) /\
  (forall i : inputs, (0 < goal_steps i)%Z -> steps_taken i = goal_steps i ->
   exists sp, steps_progress i = Ok sp /\ sp == 100).
Proof.
  split.
  - intros i Hc. unfold calories_progress.
    rewrite gt0_true by exact Hc. rewrite progress_ok by exact Hc.
    eexists. split; [reflexivity|]. field. rewrite Qz_zero. lia.
  - intros i Hs Heq. unfold steps_progress.
    rewrite gt0_true by exact Hs. rewrite progress_ok by exact Hs.
    rewrite Heq. eexists. split; [reflexivity|]. field. rewrite Qz_zero. lia.
Qed.

Lemma progress_goal_reached_witness :
  (exists cp, calories_progress (Qz (goal_calories default_inputs)) default_inputs = Ok cp /\
              cp == 100) /\
  (exists sp, steps_progress (mk_inputs 25 Female 170 70 30 10 5 80 500 5000 5000) = Ok sp /\
              sp == 100).
Proof.
  destruct progress_goal_reached as [Hc Hs]. split.
  - apply Hc. simpl. lia.
  - apply Hs; simpl; [lia | reflexivity].
Defined.

Lemma calories_progress_total (cb : Q) (i : inputs) :
  exists cp, calories_progress cb i = Ok cp.
Proof.
  unfold calories_progress. destruct (goal_calories i >? 0)%Z eqn:E.
  - apply Z.gtb_lt in E. rewrite progress_ok by lia. eexists; reflexivity.
  - eexists; reflexivity.
Qed.

Lemma steps_progress_total (i : inputs) : exists sp, steps_progress i = Ok sp.
Proof.
  unfold steps_progress. destruct (goal_steps i >? 0)%Z eqn:E.
  - apply Z.gtb_lt in E. rewrite progress_ok by lia. eexists; reflexivity.
  - eexists; reflexivity.
Qed.

Lemma calculate_running_speed_total (i : inputs) :
  exists s, calculate_running_speed i = Ok s.
Proof.
  unfold calculate_running_speed. destruct (running_time i >? 0)%Z eqn:Et.
  - apply Z.gtb_lt in Et.
    rewrite pydiv_ok by (intro E; discriminate E). cbn [rbind].
    rewrite pydiv_ok; [eexists; reflexivity|].
    intro E. assert (Hp : 0 < Qz (running_time i) / 60).
    { apply Qlt_shift_div_l; [reflexivity|]. rewrite Qmult_0_l. now apply Qz_pos. }
    rewrite E in Hp. apply (Qlt_irrefl 0). exact Hp.
  - eexists; reflexivity.
Qed.

(** The progress block never raises, whatever the goals (a zero goal
    takes the guarded branch), and shows its subheader and two lines. *)
Theorem track_progress_never_raises {D : Type} (E : env D) (i : inputs) (cb : Q) :
  exists cp sp,
    calories_progress cb i = Ok cp /\ steps_progress i = Ok sp /\
    track_progress E i cb =
      ([Subheader "Progress";
        Write ("**Calories Progress:** " ++ fmt2 E cp ++ "%");
        Write ("**Steps Progress:** " ++ fmt2 E sp ++ "%")], Ok tt).
Proof.
  destruct (calories_progress_total cb i) as [cp Hc].
  destruct (steps_progress_total i) as [sp Hs].
  exists cp, sp. split; [exact Hc|]. split; [exact Hs|].
  unfold track_progress, lift. rewrite Hc, Hs. reflexivity.
Qed.

(** The distribution block never raises.  A missing CSV shows only the
    warning and leaves [df] unbound; a CSV without the column shows the
    subheader then the warning, and [df] stays bound; otherwise the
    subheader and the bar chart are shown. *)
Theorem show_data_analysis_outcomes {D : Type} (E : env D) :
  (exists odf l, show_data_analysis E = (l, Ok odf)) /\
  (forall e, read_csv E "calories_burned_data.csv" = Err e ->
   show_data_analysis E =
     ([Warning "Dataset 'calories_burned_data.csv' not found for plotting."], Ok None)) /\
  (forall df e, read_csv E "calories_burned_data.csv" = Ok df ->
   df_calories_column E df = Err e ->
   show_data_analysis E =
     ([Subheader "Calories Burned Distribution";
       Warning "Dataset 'calories_burned_data.csv' not found for plotting."], Ok (Some df))) /\
  (forall df col, read_csv E "calories_burned_data.csv" = Ok df ->
   df_calories_column E df = Ok col ->
   show_data_analysis E =
     ([Subheader "Calories Burned Distribution"; BarChart col], Ok (Some df))).
Proof.
  unfold show_data_analysis. split; [|split; [|split]].
  - destruct (read_csv E "calories_burned_data.csv") as [df|e].
    + unfold try_except, lift, emit. cbn [mbind].
      destruct (df_calories_column E df); do 2 eexists; reflexivity.
    + do 2 eexists; reflexivity.
  - intros e H. rewrite H. reflexivity.
  - intros df e H Hc. rewrite H. unfold try_except, lift, emit. cbn [mbind].
    rewrite Hc. reflexivity.
  - intros df col H Hc. rewrite H. unfold try_except, lift, emit. cbn [mbind].
    rewrite Hc. reflexivity.
Qed.

Lemma show_data_analysis_outcomes_witness :
  show_data_analysis env_failing_write =
    ([Warning "Dataset 'calories_burned_data.csv' not found for plotting."], Ok None) /\
  show_data_analysis env_default_ok =
    ([Subheader "Calories Burned Distribution"; BarChart [100; 200]], Ok (Some tt)).
Proof.
  destruct (show_data_analysis_outcomes env_failing_write) as [_ [H1 _]].
  destruct (show_data_analysis_outcomes env_default_ok) as [_ [_ [_ H4]]].
  split; [apply (H1 OSError); reflexivity | apply H4; reflexivity].
Defined.

(** The comparison block never raises (bare [except]).  With [df]
    unbound, or when the averages cannot be computed, it shows only the
    warning "Dataset not available for comparison.". *)
Theorem compare_with_averages_never_raises {D : Type} (E : env D) (i : inputs)
    (odf : option D) (cb bmi speed : Q) :
  (exists l, compare_with_averages E i odf cb bmi speed = (l, Ok tt)) /\
  ((odf = None \/ exists df e, odf = Some df /\ df_averages E df = Err e) ->
   compare_with_averages E i odf cb bmi speed =
     ([Warning "Dataset not available for comparison."], Ok tt)).
Proof.
  unfold compare_with_averages, try_except, lift, emit. split.
  - destruct odf as [df|]; cbn [mbind]; [|eexists; reflexivity].
    destruct (df_averages E df) as [[[[a1 a2] a3] a4]|e]; cbn [mbind];
      eexists; reflexivity.
  - intros [-> | [df [e [-> He]]]]; cbn [mbind]; [reflexivity|].
    rewrite He. reflexivity.
Qed.

Lemma compare_with_averages_never_raises_witness :
  compare_with_averages env_failing_write default_inputs None 250 24 10 =
    ([Warning "Dataset not available for comparison."], Ok tt).
Proof.
  apply (proj2 (compare_with_averages_never_raises env_failing_write default_inputs
                  None 250 24 10)).
  left. reflexivity.
Defined.

Lemma display_metrics_ok {D : Type} (E : env D) (i : inputs) (cb : Q) :
  in_domain i -> predict_calories E i = Ok cb ->
  exists bmi inten speed,
    calculate_bmi i = Ok bmi /\ calculate_workout_intensity i = Ok inten /\
    calculate_running_speed i = Ok speed /\
    display_metrics E i =
      ([Title "SMARTFIT AI - Personal Fitness Tracker";
        Subheader "Your Fitness Metrics";
        Write ("**Calories Burned:** " ++ fmt2 E cb);
        Write ("**BMI:** " ++ fmt2 E bmi ++ " (" ++ classify_bmi bmi ++ ")");
        Write ("**Workout Intensity:** " ++ fmt2 E inten ++ "%");
        Write ("**Running Speed:** " ++ fmt2 E speed ++ " km/h");
        Write ("**Fitness Suggestion:** " ++ provide_suggestions bmi)],
       Ok (cb, bmi, inten, speed, classify_bmi bmi, provide_suggestions bmi)).
Proof.
  intros Hdom Hp. pose proof Hdom as H. in_dom H.
  destruct (calculate_running_speed_total i) as [speed Hs].
  rewrite calculate_bmi_ok by lia.
  rewrite calculate_workout_intensity_ok by lia.
  do 3 eexists. split; [reflexivity|]. split; [reflexivity|]. split; [exact Hs|].
  unfold display_metrics, lift, emit, ret. rewrite Hp, Hs.
  rewrite calculate_bmi_ok by lia. rewrite calculate_workout_intensity_ok by lia.
  reflexivity.
Qed.

(** Over the sidebar ranges, once the predictor returns a value, the
    metrics block raises nothing and shows the title, the subheader and
    the five metric lines, with the category and suggestion of the BMI
    it computed. *)
Theorem display_metrics_in_domain {D : Type} (E : env D) (i : inputs) (cb : Q) :
  in_domain i -> predict_calories E i = Ok cb ->
  exists bmi inten speed,
    calculate_bmi i = Ok bmi /\ calculate_workout_intensity i = Ok inten /\
    calculate_running_speed i = Ok speed /\
    display_metrics E i =
      ([Title "SMARTFIT AI - Personal Fitness Tracker";
        Subheader "Your Fitness Metrics";
        Write ("**Calories Burned:** " ++ fmt2 E cb);
        Write ("**BMI:** " ++ fmt2 E bmi ++ " (" ++ classify_bmi bmi ++ ")");
        Write ("**Workout Intensity:** " ++ fmt2 E inten ++ "%");
        Write ("**Running Speed:** " ++ fmt2 E speed ++ " km/h");
        Write ("**Fitness Suggestion:** " ++ provide_suggestions bmi)],
       Ok (cb, bmi, inten, speed, classify_bmi bmi, provide_suggestions bmi)).
Proof. apply display_metrics_ok. Qed.

Lemma default_in_domain : in_domain default_inputs.
Proof. unfold in_domain; simpl; lia. Qed.

Lemma display_metrics_in_domain_witness :
  in_domain default_inputs /\ predict_calories env_default_ok default_inputs = Ok 250 /\
  exists bmi inten speed,
    calculate_bmi default_inputs = Ok bmi /\
    calculate_workout_intensity default_inputs = Ok inten /\
    calculate_running_speed default_inputs = Ok speed /\
    display_metrics env_default_ok default_inputs =
      ([Title "SMARTFIT AI - Personal Fitness Tracker";
        Subheader "Your Fitness Metrics";
        Write ("**Calories Burned:** " ++ fmt2 env_default_ok 250);
        Write ("**BMI:** " ++ fmt2 env_default_ok bmi ++ " (" ++ classify_bmi bmi ++ ")");
        Write ("**Workout Intensity:** " ++ fmt2 env_default_ok inten ++ "%");
        Write ("**Running Speed:** " ++ fmt2 env_default_ok speed ++ " km/h");
        Write ("**Fitness Suggestion:** " ++ provide_suggestions bmi)],
       Ok (250, bmi, inten, speed, classify_bmi bmi, provide_suggestions bmi)).
Proof.
  split; [exact default_in_domain|]. split; [reflexivity|].
  apply display_metrics_in_domain; [exact default_in_domain | reflexivity].
Defined.



Lemma track_progress_ok {D : Type} (E : env D) (i : inputs) (cb : Q) :
  exists l, track_progress E i cb = (l, Ok tt).
Proof.
  destruct (calories_progress_total cb i) as [cp Hc].
  destruct (steps_progress_total i) as [sp Hs].
  unfold track_progress, lift. rewrite Hc, Hs. eexists; reflexivity.
Qed.

Lemma show_data_analysis_ok {D : Type} (E : env D) :
  exists l odf, show_data_analysis E = (l, Ok odf).
Proof.
  unfold show_data_analysis.
  destruct (read_csv E "calories_burned_data.csv") as [df|e].
  - unfold try_except, lift, emit. cbn [mbind].
    destruct (df_calories_column E df); do 2 eexists; reflexivity.
  - do 2 eexists; reflexivity.
Qed.

Lemma compare_with_averages_ok {D : Type} (E : env D) (i : inputs)
    (odf : option D) (cb bmi speed : Q) :
  exists l, compare_with_averages E i odf cb bmi speed = (l, Ok tt).
Proof.
  unfold compare_with_averages, try_except, lift, emit.
  destruct odf as [df|]; cbn [mbind]; [|eexists; reflexivity].
  destruct (df_averages E df) as [[[[a1 a2] a3] a4]|e]; cbn [mbind];
    eexists; reflexivity.
Qed.

(** Over the sidebar ranges, a run raises nothing once the predictor
    returns a value, unless the report button is clicked and the PDF
    write fails: the CSV, the comparison and the progress goals never
    abort it. *)
Theorem run_completes {D : Type} (E : env D) (i : inputs) (cb : Q)
    (compare_clicked report_clicked : bool) :
  in_domain i -> predict_calories E i = Ok cb ->
  (report_clicked = false \/ forall cells, pdf_output E cells "fitness_report.pdf" = Ok tt) ->
  snd (run E i compare_clicked report_clicked) = Ok tt.
Proof.
  intros Hdom Hp Hr. unfold run.
  destruct (display_metrics_ok E i cb Hdom Hp)
    as [bmi [inten [speed [_ [_ [_ Hdm]]]]]].
  rewrite Hdm. cbn [mbind].
  destruct (track_progress_ok E i cb) as [l2 Ht]. rewrite Ht. cbn [mbind].
  destruct (show_data_analysis_ok E) as [l3 [odf Hs]]. rewrite Hs. cbn [mbind].
  destruct compare_clicked.
  - destruct (compare_with_averages_ok E i odf cb bmi speed) as [l4 Hc].
    rewrite Hc. cbn [mbind].
    destruct report_clicked; [|reflexivity].
    destruct Hr as [Hr|Hw]; [discriminate Hr|].
    unfold generate_report, lift, emit. rewrite Hw. reflexivity.
  - cbn [mbind ret].
    destruct report_clicked; [|reflexivity].
    destruct Hr as [Hr|Hw]; [discriminate Hr|].
    unfold generate_report, lift, emit. rewrite Hw. reflexivity.
Qed.

Lemma run_completes_witness :
  snd (run env_default_ok default_inputs true true) = Ok tt.
Proof.
  apply (run_completes env_default_ok default_inputs 250 true true
           default_in_domain eq_refl).
  right. intro cells. reflexivity.
Defined.

(** When the PDF write succeeds, clicking the report button adds exactly
    one element to the page, the success message, after everything the
    run shows without it. *)
Theorem report_success_appends {D : Type} (E : env D) (i : inputs)
    (compare_clicked : bool) (l : list event) :
  (forall cells, pdf_output E cells "fitness_report.pdf" = Ok tt) ->
  run E i compare_clicked false = (l, Ok tt) ->
  run E i compare_clicked true =
    ((l ++ [Success "PDF report generated as fitness_report.pdf"])%list, Ok tt).
Proof.
  intro Hw. unfold run.
  destruct (display_metrics E i) as [l1 [m|e1]]; cbn [mbind];
    [|intro H; discriminate H].
  destruct m as [[[[[cb bmi] inten] speed] cat] sug].
  destruct (track_progress E i cb) as [l2 [u2|e2]]; cbn [mbind];
    [|intro H; discriminate H].
  destruct (show_data_analysis E) as [l3 [df|e3]]; cbn [mbind emit];
    [|intro H; discriminate H].
  destruct (if compare_clicked then compare_with_averages E i df cb bmi speed
            else ret tt) as [l4 [u4|e4]]; cbn [mbind];
    [|intro H; discriminate H].
  unfold generate_report, lift, ret, emit. rewrite Hw. cbn [mbind].
  intro H. injection H as <-. rewrite <- !app_assoc. simpl. rewrite <- !app_assoc. reflexivity.
Qed.

Lemma report_success_appends_witness :
  run env_default_ok default_inputs false true =
    ((fst (run env_default_ok default_inputs false false) ++
      [Success "PDF report generated as fitness_report.pdf"])%list, Ok tt).
Proof.
  apply report_success_appends; [intro cells; reflexivity|].
  vm_compute. reflexivity.
Defined.


